(** * app.py: the root handler of the Flask application

    The application registers one view, [hello_world], on the rule ['/'].
    The view reads [IS_PRODUCTION] from [os.environ] with a fallback,
    appends its string form to a fixed greeting and returns the result,
    which Flask turns into a response.

    The process is modelled by explicit state passing: a computation takes
    the state of the process (its environment and everything else) and
    returns either a value or a raised exception, with the state it left.

    A [str] is held as the bytes it stands for under the codec of
    [os.environ] (UTF-8 with [surrogateescape]): the literals of the source
    are their ASCII bytes, and a value of the environment is the bytes the
    mapping stores for it. Such a [str] holds a lone surrogate exactly when
    its bytes are not valid UTF-8. *)

From Stdlib Require Import String Ascii NArith.
From stdpp Require Import base option list strings gmap.

Local Open Scope string_scope.

(** ** Python values and exceptions *)

Module Py.

(** The values the view handles: a [str], or [None] (what a lookup
    without a string default could give). *)
Inductive value : Type :=
| VStr (s : string)
| VNone.

Inductive exn : Type :=
| TypeError
| UnicodeEncodeError
| NotFound.

Inductive result (A : Type) : Type :=
| Ok (a : A)
| Raise (e : exn).
Arguments Ok {A} a.
Arguments Raise {A} e.

(** [str(x)]: a [str] is returned as it is, [None] prints as its name. *)
Definition str (v : value) : string :=
  match v with
  | VStr s => s
  | VNone => "None"
  end.

(** The byte of [c] lies between [lo] and [hi]. *)
Definition in_range (lo hi : N) (c : ascii) : bool :=
  (lo <=? N_of_ascii c)%N && (N_of_ascii c <=? hi)%N.

(** The bytes allowed after the first byte [c0] of a three byte and of a
    four byte sequence: no overlong forms, no surrogates, nothing above
    U+10FFFF. *)
Definition second_of_three (c0 c1 : ascii) : bool :=
  if in_range 224 224 c0 then in_range 160 191 c1
  else if in_range 237 237 c0 then in_range 128 159 c1
  else in_range 128 191 c1.

Definition second_of_four (c0 c1 : ascii) : bool :=
  if in_range 240 240 c0 then in_range 144 191 c1
  else if in_range 244 244 c0 then in_range 128 143 c1
  else in_range 128 191 c1.

(** The bytes are valid UTF-8, that is, the [str] they stand for has no
    lone surrogate and [s.encode()] succeeds. *)
Fixpoint utf8_valid (s : string) : bool :=
  match s with
  | EmptyString => true
  | String c0 s1 =>
      if in_range 0 127 c0 then utf8_valid s1
      else if in_range 194 223 c0 then
        match s1 with
        | String c1 s2 => in_range 128 191 c1 && utf8_valid s2
        | _ => false
        end
      else if in_range 224 239 c0 then
        match s1 with
        | String c1 (String c2 s3) =>
            second_of_three c0 c1 && in_range 128 191 c2 && utf8_valid s3
        | _ => false
        end
      else if in_range 240 244 c0 then
        match s1 with
        | String c1 (String c2 (String c3 s4)) =>
            second_of_four c0 c1 && in_range 128 191 c2
            && in_range 128 191 c3 && utf8_valid s4
        | _ => false
        end
      else false
  end.

(** Every byte is ASCII. *)
Fixpoint all_ascii (s : string) : bool :=
  match s with
  | EmptyString => true
  | String c s' => in_range 0 127 c && all_ascii s'
  end.

End Py.
Import Py.

(** ** The process and computations over it *)

Section Process.

(** Whatever state the process has besides its environment. *)
Context {Other : Type}.

Record World : Type := mkWorld {
  os_environ : gmap string string;
  other : Other
}.

Definition M (A : Type) : Type := World -> result A * World.

Definition ret {A} (a : A) : M A := fun w => (Ok a, w).

Definition raise {A} (e : exn) : M A := fun w => (Raise e, w).

Definition bind {A B} (m : M A) (k : A -> M B) : M B :=
  fun w =>
    match m w with
    | (Ok a, w') => k a w'
    | (Raise e, w') => (Raise e, w')
    end.

Notation "'let*' x ':=' m 'in' k" := (bind m (fun x => k))
  (at level 10, x name, m at level 100, k at level 200).

(** [os.environ.get(key, default)]: the value stored under [key], which
    is always a [str], or [default] when there is none. Reads only. *)
Definition environ_get (key : string) (default : value) : M value :=
  fun w => (Ok (from_option VStr default (os_environ w !! key)), w).

(** [a + b] on the values above: concatenation of two [str], a
    [TypeError] otherwise. *)
Definition add (a b : value) : M value :=
  match a, b with
  | VStr x, VStr y => ret (VStr (x +:+ y))
  | _, _ => raise TypeError
  end.

(** ** The view (app.py, lines 6 to 10) *)

Definition hello_world : M value :=
  let* envVar := environ_get "IS_PRODUCTION" (VStr "didnt get any") in
  let* res := add (VStr "Hello ECS! Finally it Works, Yaayy") (VStr (str envVar)) in
  ret res.

(** ** What Flask does with the view *)

Record Response : Type := mkResponse {
  status : nat;
  body : string
}.

(** A [str] returned by a view is encoded as UTF-8 and becomes the body
    of a 200 response; a [str] that cannot be encoded raises
    [UnicodeEncodeError]; [None] is refused. *)
Definition make_response (rv : value) : M Response :=
  match rv with
  | VStr s =>
      if utf8_valid s then ret {| status := 200; body := s |}
      else raise UnicodeEncodeError
  | VNone => raise TypeError
  end.

(** [@app.route('/')]: the only rule of the application. *)
Definition url_map : list (string * M value) :=
  [("/", hello_world)].

Definition match_rule (path : string) : option (M value) :=
  snd <$> List.find (fun r => bool_decide (fst r = path)) url_map.

(** The handling of one request, given by its path. The rule is
    registered with the default methods, and the request is taken to have
    one of them (a GET): the matching view is called and its return value
    converted; a path without rule raises [NotFound]. What is raised here
    is answered by Flask with an error page, see [http_status]. *)
Definition full_dispatch_request (path : string) : M Response :=
  match match_rule path with
  | Some view => let* rv := view in make_response rv
  | None => raise NotFound
  end.

(** The status line of the answer: the status of the response, 404 for
    a path without rule, 500 for any other exception. *)
Definition http_status (r : result Response) : nat :=
  match r with
  | Ok resp => status resp
  | Raise NotFound => 404
  | Raise _ => 500
  end.

(** [m] with its exception caught: the server answers a failed request
    with an error page and goes on. *)
Definition catch {A} (m : M A) : M (result A) :=
  fun w => (Ok (fst (m w)), snd (m w)).

(** [n] requests to [path], one after the other, each on the state the
    previous one left; their answers are dropped. *)
Fixpoint serve_many (n : nat) (path : string) : M unit :=
  match n with
  | O => ret tt
  | S n' => let* _r := catch (full_dispatch_request path) in serve_many n' path
  end.

(** A request to [path] made after [n] earlier ones. *)
Definition request_after (n : nat) (path : string) : M Response :=
  let* _u := serve_many n path in full_dispatch_request path.

(** A change made to the environment from outside the view: the
    variable is set to a value, or removed. *)
Definition set_environ (key : string) (v : option string) (w : World) : World :=
  {| os_environ := match v with
                   | Some s => <[key := s]> (os_environ w)
                   | None => delete key (os_environ w)
                   end;
     other := other w |}.

End Process.

Arguments World Other : clear implicits.
Arguments M Other A : clear implicits.

(** Processes a request may find: nothing set, a deployment that sets the
    flag among other variables, and one that sets it to the empty string.
    The rest of the state is taken to be a number here. *)
Definition bare_world : World nat :=
  {| os_environ := ∅; other := 0 |}.

Definition production_world : World nat :=
  {| os_environ := {[ "IS_PRODUCTION" := "true"; "PATH" := "/usr/bin" ]};
     other := 0 |}.

Definition blank_world : World nat :=
  {| os_environ := {[ "IS_PRODUCTION" := "" ]}; other := 0 |}.

(** The same flag as [production_world] in a process that differs in all
    the rest: other variables, other state. *)
Definition busy_world : World nat :=
  {| os_environ := {[ "HOME" := "/root"; "IS_PRODUCTION" := "true";
                      "FLASK_APP" := "app.py" ]};
     other := 41 |}.

(** The word cafe with an acute accent, in Latin-1: its last byte, 0xE9, is not valid
    UTF-8 on its own. *)
Definition cafe_latin1 : string :=
  "caf" +:+ String "233"%char EmptyString.

(** A deployment whose flag was written in Latin-1. *)
Definition latin1_world : World nat :=
  {| os_environ := {[ "IS_PRODUCTION" := cafe_latin1; "LANG" := "C" ]};
     other := 0 |}.

(** A deployment whose flag is valid UTF-8 beyond ASCII: the same word
    with the two bytes 0xC3 0xA9 at the end. *)
Definition cafe_utf8 : string :=
  "caf" +:+ String "195"%char (String "169"%char EmptyString).

Definition utf8_world : World nat :=
  {| os_environ := {[ "IS_PRODUCTION" := cafe_utf8 ]}; other := 0 |}.

(** A deployment that sets the flag to the very text of the fallback. *)
Definition echo_world : World nat :=
  {| os_environ := {[ "IS_PRODUCTION" := "didnt get any" ]}; other := 3 |}.

(** ** Running computations *)

Section Running.

Context {Other : Type}.
Implicit Types (w : World Other) (key path : string).

Lemma bind_ok {A B} (m : M Other A) (k : A -> M Other B) w a w' :
  m w = (Ok a, w') -> bind m k w = k a w'.
Proof. intros Hm. unfold bind. rewrite Hm. reflexivity. Qed.

Lemma bind_raise {A B} (m : M Other A) (k : A -> M Other B) w e w' :
  m w = (Raise e, w') -> bind m k w = (Raise e, w').
Proof. intros Hm. unfold bind. rewrite Hm. reflexivity. Qed.

(** Whatever a caught computation does, what follows it runs. *)
Lemma bind_catch {A B} (m : M Other A) (k : result A -> M Other B) w :
  bind (catch m) k w = k (fst (m w)) (snd (m w)).
Proof. reflexivity. Qed.

Lemma environ_get_run key default w :
  environ_get key default w
  = (Ok (from_option VStr default (os_environ w !! key)), w).
Proof. reflexivity. Qed.

(** A lookup with a [str] default gives a [str]. *)
Lemma environ_get_str key d w :
  environ_get key (VStr d) w
  = (Ok (VStr (default d (os_environ w !! key))), w).
Proof.
  rewrite environ_get_run.
  destruct (os_environ w !! key); reflexivity.
Qed.

Lemma add_str (x y : string) w :
  add (VStr x) (VStr y) w = (Ok (VStr (x +:+ y)), w).
Proof. reflexivity. Qed.

(** The view in one step: the greeting followed by the variable's value
    or the fallback, in an unchanged process. *)
Lemma hello_world_run w :
  hello_world w
  = (Ok (VStr ("Hello ECS! Finally it Works, Yaayy"
               +:+ default "didnt get any"
                     (os_environ w !! "IS_PRODUCTION"))), w).
Proof.
  unfold hello_world.
  rewrite (bind_ok _ _ _ _ _ (environ_get_str _ _ w)).
  rewrite (bind_ok _ _ _ _ _ (add_str _ _ w)).
  reflexivity.
Qed.

Lemma match_rule_root : match_rule "/" = Some (@hello_world Other).
Proof. reflexivity. Qed.

End Running.

(** ** Strings *)

Lemma prefix_append (s t : string) : String.prefix s (s +:+ t) = true.
Proof.
  induction s as [|a s IH].
  - destruct t; reflexivity.
  - change (String a s +:+ t) with (String a (s +:+ t)).
    cbn [String.prefix].
    destruct (Ascii.ascii_dec a a) as [_|Hne]; [exact IH | contradiction].
Qed.

Lemma append_inv_head (s a b : string) : s +:+ a = s +:+ b -> a = b.
Proof.
  induction s as [|c s IH]; intros Heq.
  - exact Heq.
  - change (String c (s +:+ a) = String c (s +:+ b)) in Heq.
    injection Heq as Heq. exact (IH Heq).
Qed.

(** An ASCII byte is a sequence of its own. *)
Lemma utf8_valid_ascii_cons (c : ascii) (s : string) :
  in_range 0 127 c = true -> utf8_valid (String c s) = utf8_valid s.
Proof. intros Hc. cbn [utf8_valid]. rewrite Hc. reflexivity. Qed.

(** ASCII text in front changes nothing to the validity of what follows. *)
Lemma utf8_valid_ascii_append (s t : string) :
  all_ascii s = true -> utf8_valid (s +:+ t) = utf8_valid t.
Proof.
  induction s as [|c s IH]; intros Hs.
  - reflexivity.
  - cbn [all_ascii] in Hs. apply andb_prop in Hs as [Hc Hs].
    change (String c s +:+ t) with (String c (s +:+ t)).
    rewrite (utf8_valid_ascii_cons _ _ Hc).
    exact (IH Hs).
Qed.

Lemma Ok_inj {A} (a b : A) : @Ok A a = Ok b -> a = b.
Proof. intros [= ->]. reflexivity. Qed.

(** ** Running requests *)

Section Serving.

Context {Other : Type}.
Implicit Types (w : World Other) (key path : string).

(** The root request in one step: the view's string as a 200 response
    when the value it carries is valid UTF-8, an encoding error
    otherwise; the process is unchanged either way. *)
Lemma dispatch_root_run w :
  full_dispatch_request "/" w
  = (if utf8_valid (default "didnt get any"
                      (os_environ w !! "IS_PRODUCTION"))
     then Ok {| status := 200;
                body := "Hello ECS! Finally it Works, Yaayy"
                        +:+ default "didnt get any"
                              (os_environ w !! "IS_PRODUCTION") |}
     else Raise UnicodeEncodeError, w).
Proof.
  unfold full_dispatch_request. rewrite match_rule_root.
  rewrite (bind_ok _ _ _ _ _ (hello_world_run w)).
  unfold make_response.
  rewrite utf8_valid_ascii_append by reflexivity.
  destruct (utf8_valid _); reflexivity.
Qed.

Lemma dispatch_root_state w : snd (full_dispatch_request "/" w) = w.
Proof. rewrite dispatch_root_run. reflexivity. Qed.

Lemma serve_many_root_run n w : serve_many n "/" w = (Ok tt, w).
Proof.
  induction n as [|n IH]; [reflexivity|].
  cbn [serve_many].
  rewrite bind_catch, dispatch_root_state.
  exact IH.
Qed.

Lemma lookup_set_environ key v w :
  os_environ (set_environ key v w) !! key = v.
Proof.
  destruct v as [s|]; cbn [set_environ os_environ].
  - apply lookup_insert_eq.
  - apply lookup_delete_eq.
Qed.

End Serving.

(** ** The root handler *)

Section RootHandler.

Context {Other : Type}.
Implicit Types (w : World Other) (v : string).

(** C1. With [IS_PRODUCTION] unset, the view returns the greeting
    followed by the fallback literal, spelled as in the source, and a
    request to the root path is answered with status 200 and exactly
    that body. *)
Theorem hello_world_unset w :
  os_environ w !! "IS_PRODUCTION" = None ->
  hello_world w
  = (Ok (VStr "Hello ECS! Finally it Works, Yaayydidnt get any"), w)
  /\ full_dispatch_request "/" w
     = (Ok {| status := 200;
              body := "Hello ECS! Finally it Works, Yaayydidnt get any" |},
        w).
Proof.
  intros Hunset.
  rewrite hello_world_run, dispatch_root_run, Hunset.
  split; reflexivity.
Qed.

(** C2, amended. With [IS_PRODUCTION] set to a string [v] that is valid
    UTF-8, a request to the root path is answered with the greeting
    literal followed by [v]; at [v = "true"] this is the body
    ["Hello ECS! Finally it Works, Yaayytrue"]. *)
Theorem hello_world_set w v :
  os_environ w !! "IS_PRODUCTION" = Some v ->
  utf8_valid v = true ->
  full_dispatch_request "/" w
  = (Ok {| status := 200;
           body := "Hello ECS! Finally it Works, Yaayy" +:+ v |}, w).
Proof.
  intros Hset Hvalid.
  rewrite dispatch_root_run, Hset.
  cbn [default from_option id]. rewrite Hvalid.
  reflexivity.
Qed.

(** C3. With [IS_PRODUCTION] set to the empty string the lookup gives
    the empty string and not the fallback: the body is the bare
    greeting, and it differs from the answer of any process in which
    the variable is unset. *)
Theorem hello_world_empty w w' :
  os_environ w !! "IS_PRODUCTION" = Some "" ->
  os_environ w' !! "IS_PRODUCTION" = None ->
  fst (environ_get "IS_PRODUCTION" (VStr "didnt get any") w) = Ok (VStr "")
  /\ fst (full_dispatch_request "/" w)
     = Ok {| status := 200; body := "Hello ECS! Finally it Works, Yaayy" |}
  /\ fst (full_dispatch_request "/" w) <> fst (full_dispatch_request "/" w').
Proof.
  intros Hempty Hunset.
  rewrite environ_get_str, !dispatch_root_run, Hempty, Hunset.
  split; [reflexivity | split; [reflexivity | discriminate]].
Qed.

(** C4, amended. Whenever [IS_PRODUCTION] is unset or holds valid UTF-8,
    a request to the root path is answered, and with status 200. *)
Theorem root_status_200 w :
  utf8_valid (default "didnt get any" (os_environ w !! "IS_PRODUCTION"))
  = true ->
  exists r, fst (full_dispatch_request "/" w) = Ok r /\ status r = 200.
Proof.
  intros Hvalid.
  rewrite dispatch_root_run, Hvalid.
  eexists. split; reflexivity.
Qed.

(** C5. The view is total and raises nothing: in every process it
    returns a [str], and so does the lookup it starts with. *)
Theorem hello_world_total w :
  (exists s, fst (environ_get "IS_PRODUCTION" (VStr "didnt get any") w)
             = Ok (VStr s))
  /\ (exists s, fst (hello_world w) = Ok (VStr s))
  /\ (forall e, fst (hello_world w) <> Raise e).
Proof.
  rewrite environ_get_str, hello_world_run.
  cbn [fst].
  split; [eexists; reflexivity | split; [eexists; reflexivity | discriminate]].
Qed.

(** C6. Two invocations that find the same presence and value of
    [IS_PRODUCTION] give the same response, whatever else differs
    between the two processes and however many requests each of them
    has served before: nothing accumulates. *)
Theorem hello_world_deterministic w1 w2 (n1 n2 : nat) :
  os_environ w1 !! "IS_PRODUCTION" = os_environ w2 !! "IS_PRODUCTION" ->
  fst (request_after n1 "/" w1) = fst (request_after n2 "/" w2).
Proof.
  intros Hsame. unfold request_after.
  rewrite (bind_ok _ _ _ _ _ (serve_many_root_run n1 w1)).
  rewrite (bind_ok _ _ _ _ _ (serve_many_root_run n2 w2)).
  rewrite !dispatch_root_run, Hsame.
  reflexivity.
Qed.

(** C7. The view has no effect: the process it leaves, environment
    and all the rest, is the process it found, and the same holds for
    the whole handling of a root request. *)
Theorem hello_world_no_effect w :
  snd (hello_world w) = w /\ snd (full_dispatch_request "/" w) = w.
Proof.
  rewrite hello_world_run, dispatch_root_state.
  split; reflexivity.
Qed.

(** C8, amended. The variable is read at each invocation: after any
    number of requests, if the environment is changed so that
    [IS_PRODUCTION] is [v] (a value that is valid UTF-8, or unset), the
    next response carries [v] (or the fallback), not what earlier
    requests saw. *)
Theorem hello_world_reads_fresh w (n : nat) (v : option string) :
  utf8_valid (default "didnt get any" v) = true ->
  fst (full_dispatch_request "/"
         (set_environ "IS_PRODUCTION" v (snd (serve_many n "/" w))))
  = Ok {| status := 200;
          body := "Hello ECS! Finally it Works, Yaayy"
                  +:+ default "didnt get any" v |}.
Proof.
  intros Hvalid.
  rewrite dispatch_root_run, lookup_set_environ, Hvalid.
  reflexivity.
Qed.

(** C9. In every process the string the view returns begins with the
    greeting literal, and so does the body of the response whenever
    the request is answered with one. *)
Theorem hello_world_prefix w :
  (exists s,
     fst (hello_world w) = Ok (VStr s)
     /\ String.prefix "Hello ECS! Finally it Works, Yaayy" s = true)
  /\ match fst (full_dispatch_request "/" w) with
     | Ok r => String.prefix "Hello ECS! Finally it Works, Yaayy" (body r)
               = true
     | Raise _ => True
     end.
Proof.
  rewrite dispatch_root_run, hello_world_run. cbn [fst].
  split.
  - eexists. split; [reflexivity | apply prefix_append].
  - destruct (utf8_valid _); [cbn [body]; apply prefix_append | exact I].
Qed.

(** C10. The response depends on the environment through
    [IS_PRODUCTION] alone: two environments with the same entry for it
    give the same response, however they differ elsewhere. *)
Theorem hello_world_noninterference (env1 env2 : gmap string string)
    (o : Other) :
  env1 !! "IS_PRODUCTION" = env2 !! "IS_PRODUCTION" ->
  fst (full_dispatch_request "/" {| os_environ := env1; other := o |})
  = fst (full_dispatch_request "/" {| os_environ := env2; other := o |}).
Proof.
  intros Hsame.
  rewrite !dispatch_root_run. cbn [os_environ].
  rewrite Hsame. reflexivity.
Qed.

End RootHandler.

(** ** The theorems at concrete processes *)

Lemma hello_world_unset_witness :
  os_environ bare_world !! "IS_PRODUCTION" = None
  /\ hello_world bare_world
     = (Ok (VStr "Hello ECS! Finally it Works, Yaayydidnt get any"),
        bare_world)
  /\ full_dispatch_request "/" bare_world
     = (Ok {| status := 200;
              body := "Hello ECS! Finally it Works, Yaayydidnt get any" |},
        bare_world).
Proof.
  split; [reflexivity | apply (hello_world_unset bare_world); reflexivity].
Defined.

Lemma hello_world_set_witness :
  os_environ production_world !! "IS_PRODUCTION" = Some "true"
  /\ utf8_valid "true" = true
  /\ full_dispatch_request "/" production_world
     = (Ok {| status := 200;
              body := "Hello ECS! Finally it Works, Yaayytrue" |},
        production_world).
Proof.
  split; [reflexivity | split; [reflexivity |]].
  apply (hello_world_set production_world "true"); reflexivity.
Defined.

(** C2 without the restriction to valid UTF-8 fails: for the Latin-1
    value the view returns its string and the conversion to a response
    raises. *)
Lemma hello_world_set_counterexample :
  os_environ latin1_world !! "IS_PRODUCTION" = Some cafe_latin1
  /\ fst (full_dispatch_request "/" latin1_world) = Raise UnicodeEncodeError
  /\ full_dispatch_request "/" latin1_world
     <> (Ok {| status := 200;
               body := "Hello ECS! Finally it Works, Yaayy"
                       +:+ cafe_latin1 |}, latin1_world).
Proof.
  assert (Hrun : full_dispatch_request "/" latin1_world
                 = (Raise UnicodeEncodeError, latin1_world))
    by reflexivity.
  split; [reflexivity | split].
  - rewrite Hrun. reflexivity.
  - rewrite Hrun. discriminate.
Qed.

Lemma hello_world_empty_witness :
  os_environ blank_world !! "IS_PRODUCTION" = Some ""
  /\ os_environ bare_world !! "IS_PRODUCTION" = None
  /\ fst (environ_get "IS_PRODUCTION" (VStr "didnt get any") blank_world)
     = Ok (VStr "")
  /\ fst (full_dispatch_request "/" blank_world)
     = Ok {| status := 200; body := "Hello ECS! Finally it Works, Yaayy" |}
  /\ fst (full_dispatch_request "/" blank_world)
     <> fst (full_dispatch_request "/" bare_world).
Proof.
  split; [reflexivity | split; [reflexivity |]].
  apply (hello_world_empty blank_world bare_world); reflexivity.
Defined.

Lemma root_status_200_witness :
  utf8_valid (default "didnt get any"
                (os_environ utf8_world !! "IS_PRODUCTION")) = true
  /\ exists r, fst (full_dispatch_request "/" utf8_world) = Ok r
               /\ status r = 200.
Proof.
  split; [reflexivity | apply (root_status_200 utf8_world); reflexivity].
Defined.

(** C4 without the restriction fails: a flag that is not valid UTF-8
    gets no 200 response, the request ends in an exception and the status
    is 500. *)
Lemma root_status_200_counterexample :
  http_status (fst (full_dispatch_request "/" latin1_world)) = 500
  /\ ~ (exists r, fst (full_dispatch_request "/" latin1_world) = Ok r
                  /\ status r = 200).
Proof.
  assert (Hrun : full_dispatch_request "/" latin1_world
                 = (Raise UnicodeEncodeError, latin1_world))
    by reflexivity.
  rewrite Hrun. split; [reflexivity |].
  intros [r [Hr _]]. discriminate Hr.
Qed.

Lemma hello_world_deterministic_witness :
  os_environ production_world !! "IS_PRODUCTION"
  = os_environ busy_world !! "IS_PRODUCTION"
  /\ fst (request_after 0 "/" production_world)
     = fst (request_after 2 "/" busy_world).
Proof.
  split; [reflexivity |].
  apply (hello_world_deterministic production_world busy_world 0 2).
  reflexivity.
Defined.

Lemma hello_world_reads_fresh_witness :
  utf8_valid (default "didnt get any" (Some "false")) = true
  /\ fst (full_dispatch_request "/"
            (set_environ "IS_PRODUCTION" (Some "false")
               (snd (serve_many 2 "/" production_world))))
     = Ok {| status := 200;
             body := "Hello ECS! Finally it Works, Yaayyfalse" |}.
Proof.
  split; [reflexivity |].
  apply (hello_world_reads_fresh production_world 2 (Some "false")).
  reflexivity.
Defined.

(** C8 without the restriction fails: after a first request, a change
    of the flag to a value that is not valid UTF-8 is not carried by the
    next response, the request ends in an exception. *)
Lemma hello_world_reads_fresh_counterexample :
  fst (full_dispatch_request "/"
         (set_environ "IS_PRODUCTION" (Some cafe_latin1)
            (snd (serve_many 1 "/" bare_world))))
  = Raise UnicodeEncodeError
  /\ fst (full_dispatch_request "/"
            (set_environ "IS_PRODUCTION" (Some cafe_latin1)
               (snd (serve_many 1 "/" bare_world))))
     <> Ok {| status := 200;
              body := "Hello ECS! Finally it Works, Yaayy"
                      +:+ default "didnt get any" (Some cafe_latin1) |}.
Proof.
  assert (Hrun : fst (full_dispatch_request "/"
                        (set_environ "IS_PRODUCTION" (Some cafe_latin1)
                           (snd (serve_many 1 "/" bare_world))))
                 = Raise UnicodeEncodeError)
    by reflexivity.
  rewrite Hrun. split; [reflexivity | discriminate].
Qed.

Lemma hello_world_noninterference_witness :
  os_environ production_world !! "IS_PRODUCTION"
  = os_environ busy_world !! "IS_PRODUCTION"
  /\ fst (full_dispatch_request "/"
            {| os_environ := os_environ production_world; other := 7 |})
     = fst (full_dispatch_request "/"
              {| os_environ := os_environ busy_world; other := 7 |}).
Proof.
  split; [reflexivity |].
  apply (hello_world_noninterference
           (os_environ production_world) (os_environ busy_world) 7).
  reflexivity.
Defined.

(** ** What an answer tells about the environment *)

Section Observing.

Context {Other : Type}.
Implicit Types (w : World Other) (v : string).

(** X1. The view returns the same string in two processes exactly when
    the value it ends up with (the variable's value, or the fallback
    when it is unset) is the same in both. *)
Theorem returned_same_iff_value_same w1 w2 :
  fst (hello_world w1) = fst (hello_world w2)
  <-> default "didnt get any" (os_environ w1 !! "IS_PRODUCTION")
      = default "didnt get any" (os_environ w2 !! "IS_PRODUCTION").
Proof.
  rewrite !hello_world_run. cbn [fst].
  split; intros Heq.
  - apply Ok_inj in Heq. injection Heq as Heq.
    exact (append_inv_head _ _ _ Heq).
  - rewrite Heq. reflexivity.
Qed.

(** X2. A process in which [IS_PRODUCTION] is unset and one in which it
    is set to the text ["didnt get any"] get the same response: the
    response does not tell them apart. *)
Theorem unset_same_as_fallback_text w1 w2 :
  os_environ w1 !! "IS_PRODUCTION" = None ->
  os_environ w2 !! "IS_PRODUCTION" = Some "didnt get any" ->
  fst (full_dispatch_request "/" w1) = fst (full_dispatch_request "/" w2).
Proof.
  intros Hunset Hset.
  rewrite !dispatch_root_run, Hunset, Hset.
  reflexivity.
Qed.

(** X3. Two processes that set [IS_PRODUCTION] to different values get
    different strings from the view. *)
Theorem set_values_told_apart w1 w2 v1 v2 :
  os_environ w1 !! "IS_PRODUCTION" = Some v1 ->
  os_environ w2 !! "IS_PRODUCTION" = Some v2 ->
  v1 <> v2 ->
  fst (hello_world w1) <> fst (hello_world w2).
Proof.
  intros H1 H2 Hne.
  rewrite !hello_world_run, H1, H2. cbn [fst default from_option id].
  intros Heq. apply Ok_inj in Heq. injection Heq as Heq.
  exact (Hne (append_inv_head _ _ _ Heq)).
Qed.

(** X4. A root request ends with status 500 exactly when [IS_PRODUCTION]
    is set to a value that is not valid UTF-8, and with status 200 in
    every other process. *)
Theorem root_status_500_iff w :
  (http_status (fst (full_dispatch_request "/" w)) = 500
   <-> exists v, os_environ w !! "IS_PRODUCTION" = Some v
                 /\ utf8_valid v = false)
  /\ (http_status (fst (full_dispatch_request "/" w)) = 200
      \/ http_status (fst (full_dispatch_request "/" w)) = 500).
Proof.
  rewrite dispatch_root_run. cbn [fst].
  destruct (os_environ w !! "IS_PRODUCTION") as [v|] eqn:Hlookup;
    cbn [default from_option id].
  - destruct (utf8_valid v) eqn:Hvalid; cbn [http_status status].
    + split; [split | left; reflexivity].
      * discriminate.
      * intros [v' [[= <-] Hv']]. congruence.
    + split; [split | right; reflexivity].
      * intros _. exists v. split; [reflexivity | exact Hvalid].
      * intros _. reflexivity.
  - change (utf8_valid "didnt get any") with true.
    cbn [http_status status].
    split; [split | left; reflexivity].
    + discriminate.
    + intros [v' [Hv' _]]. discriminate Hv'.
Qed.

End Observing.

Lemma unset_same_as_fallback_text_witness :
  os_environ bare_world !! "IS_PRODUCTION" = None
  /\ os_environ echo_world !! "IS_PRODUCTION" = Some "didnt get any"
  /\ fst (full_dispatch_request "/" bare_world)
     = fst (full_dispatch_request "/" echo_world).
Proof.
  split; [reflexivity | split; [reflexivity |]].
  apply (unset_same_as_fallback_text bare_world echo_world); reflexivity.
Defined.

Lemma set_values_told_apart_witness :
  os_environ latin1_world !! "IS_PRODUCTION" = Some cafe_latin1
  /\ os_environ utf8_world !! "IS_PRODUCTION" = Some cafe_utf8
  /\ cafe_latin1 <> cafe_utf8
  /\ fst (hello_world latin1_world) <> fst (hello_world utf8_world).
Proof.
  split; [reflexivity | split; [reflexivity | split; [discriminate |]]].
  apply (set_values_told_apart latin1_world utf8_world
           cafe_latin1 cafe_utf8);
    [reflexivity | reflexivity | discriminate].
Defined.
